(** * go-llama: a one-shot client of a chat-completion API

    Shallow embedding of [src/main.go] (the current program) and of
    [src/unnamed/part_001] (its earlier variant, which aborts inside
    [getGeneratedResponse] instead of returning an error).

    Layout:
    - the wire types of both files (they declare the same types);
    - the library calls the program makes ([json.Marshal], [os.Getenv],
      [http.NewRequestWithContext], [client.Do], [io.ReadAll],
      [json.Unmarshal], [json.NewDecoder(..).Decode], [log], [fmt]);
      what the outside world answers is a [World] record, what the program
      does to the outside world is a trace of [event]s;
    - the two programs, one module each;
    - the properties. *)

From Stdlib Require Import ZArith NArith Ascii String List Lia.
From stdpp Require Import base option list strings pretty gmap.

Open Scope string_scope.
Open Scope Z_scope.

(** ** Wire types (lines 15-74 of main.go, 13-72 of part_001) *)

(** Go field names repeat across structs ([Role], [Content], [Type], ...);
    a projection here carries its struct's name in front. *)

Record reqMessage := {
  reqMessage_Role : string;
  reqMessage_Content : string
}.

Record words := {
  words_Type : string;
  words_Description : string
}.

Record properties := {
  properties_Words : words
}.

Record parameters := {
  parameters_Type : string;
  parameters_Properties : properties
}.

Record function := {
  function_Name : string;
  function_Description : string;
  function_Parameters : parameters;
  function_Required : list string
}.

Record chatRequest := {
  Model : string;
  Messages : list reqMessage;
  Functions : list function;
  Stream : bool;
  FunctionCall : string
}.

Record arguments := {
  arguments_Words : list string
}.

Record functionCall := {
  functionCall_Name : string;
  functionCall_Arguments : arguments
}.

Record resMessage := {
  resMessage_Role : string;
  resMessage_Content : string;
  resMessage_FunctionCall : functionCall
}.

Record choice := {
  Index : Z;
  Message : resMessage;
  FinishReason : string
}.

Record chatResponse := {
  Choices : list choice
}.

(** Endpoint *)
Definition API_URL : string := "https://api.llama-api.com/chat/completions".

(** ** Go values the program handles *)

(** A Go [error] is known to this program only through its message;
    [errors.New msg] is the constructor, [Error] the method. A nil error is
    [None] in [option error]. *)
Record error := errors_New { Error : string }.

(** A library call returning [(T, error)] whose [T] is dead when the error
    is not nil. *)
Inductive result (A : Type) : Type :=
| Ok (a : A)
| Err (e : error).
Arguments Ok {A} a.
Arguments Err {A} e.

(** [http.Header] is [map[string][]string]; [Set] replaces the values of a
    key by one value. (Go first brings the key to canonical MIME form; the
    two keys the program sets are written in that form already.) *)
Definition Header_Set (h : gmap string (list string)) (key value : string)
  : gmap string (list string) :=
  <[key := [value]]> h.

Record Request := {
  Method : string;
  URL : string;
  Header : gmap string (list string);
  Body : string
}.

Definition Request_Header_Set (req : Request) (key value : string) : Request :=
  {| Method := Method req; URL := URL req;
     Header := Header_Set (Header req) key value; Body := Body req |}.

(** A response body is a stream; all the program ever does with it is read
    it to the end and close it, so it is the bytes that arrive and the read
    error that ends them, if any. *)
Record ReadCloser := {
  stream_data : string;
  stream_err : option error
}.

Record Response := {
  StatusCode : Z;
  Status : string;
  Response_Body : ReadCloser
}.

Definition http_StatusOK : Z := 200.

(** ** [encoding/json]: marshalling the request

    [json.Marshal] walks the struct by reflection: one object member per
    exported field, in declaration order, named by the field's [json:"..."]
    tag. The tags are the source's; the text encoder is the library's. *)

Module JSON.

(** The JSON values the request types produce. *)
#[local] Set Warnings "-register-all".
Inductive value : Type :=
| Bool (b : bool)
| Str (s : string)
| Arr (elems : list value)
| Obj (members : list (string * value)).

(** *** Strings: Go's [appendString] with HTML escaping on

    A Go string is a byte sequence, as a Rocq [string] is. *)

Definition dquote : ascii := "034"%char.
Definition backslash : ascii := "092"%char.

Definition hex : string := "0123456789abcdef".

Definition hex_digit (n : N) : ascii :=
  default "0"%char (String.get (N.to_nat n) hex).

Definition RuneError : N := 0xFFFD%N.

Definition byte_at (i : nat) (s : string) : N :=
  default 0%N (N_of_ascii <$> String.get i s).

(** [utf8.first] joined with [utf8.acceptRanges]: for a leading byte, the
    length of the sequence and the range its second byte must lie in;
    [None] for a byte that cannot lead ([xx] in Go's table). *)
Definition first (s0 : N) : option (nat * N * N) :=
  if (s0 <? 0xC2)%N then None
  else if (s0 <? 0xE0)%N then Some (2%nat, 0x80%N, 0xBF%N)
  else if (s0 =? 0xE0)%N then Some (3%nat, 0xA0%N, 0xBF%N)
  else if (s0 <? 0xED)%N then Some (3%nat, 0x80%N, 0xBF%N)
  else if (s0 =? 0xED)%N then Some (3%nat, 0x80%N, 0x9F%N)
  else if (s0 <? 0xF0)%N then Some (3%nat, 0x80%N, 0xBF%N)
  else if (s0 =? 0xF0)%N then Some (4%nat, 0x90%N, 0xBF%N)
  else if (s0 <? 0xF4)%N then Some (4%nat, 0x80%N, 0xBF%N)
  else if (s0 =? 0xF4)%N then Some (4%nat, 0x80%N, 0x8F%N)
  else None.

Definition continuation (b : N) : bool := (0x80 <=? b)%N && (b <=? 0xBF)%N.

(** [utf8.DecodeRuneInString]: the first rune of [s] and its width in
    bytes; [(RuneError, 1)] for a malformed sequence. *)
Definition DecodeRuneInString (s : string) : N * nat :=
  match s with
  | EmptyString => (RuneError, 0%nat)
  | String c0 _ =>
      let s0 := N_of_ascii c0 in
      if (s0 <? 0x80)%N then (s0, 1%nat) else
      match first s0 with
      | None => (RuneError, 1%nat)
      | Some (sz, lo, hi) =>
          if (String.length s <? sz)%nat then (RuneError, 1%nat) else
          let s1 := byte_at 1 s in
          if (s1 <? lo)%N || (hi <? s1)%N then (RuneError, 1%nat) else
          if (sz <=? 2)%nat then
            (N.lor (N.shiftl (N.land s0 0x1F) 6) (N.land s1 0x3F), 2%nat)
          else
          let s2 := byte_at 2 s in
          if negb (continuation s2) then (RuneError, 1%nat) else
          if (sz <=? 3)%nat then
            (N.lor (N.lor (N.shiftl (N.land s0 0x0F) 12)
                          (N.shiftl (N.land s1 0x3F) 6))
                   (N.land s2 0x3F), 3%nat)
          else
          let s3 := byte_at 3 s in
          if negb (continuation s3) then (RuneError, 1%nat) else
          (N.lor (N.lor (N.lor (N.shiftl (N.land s0 0x07) 18)
                               (N.shiftl (N.land s1 0x3F) 12))
                        (N.shiftl (N.land s2 0x3F) 6))
                 (N.land s3 0x3F), 4%nat)
      end
  end.

(** [htmlSafeSet]: the ASCII bytes copied as they are: everything from
    space up, less the quote, the backslash and [<], [>], [&]. *)
Definition htmlSafe (b : N) : bool :=
  (0x20 <=? b)%N && (b <? 0x80)%N
  && negb ((b =? 0x22)%N || (b =? 0x5C)%N
           || (b =? 0x3C)%N || (b =? 0x3E)%N || (b =? 0x26)%N).

(** The [switch b] of [appendString] for an ASCII byte outside the safe
    set (the short forms of backspace and form feed are those of Go 1.22
    and later). *)
Definition escape_ascii (c : ascii) : string :=
  let b := N_of_ascii c in
  if (b =? 0x5C)%N || (b =? 0x22)%N then String backslash (String c "")
  else if (b =? 0x08)%N then String backslash "b"
  else if (b =? 0x0C)%N then String backslash "f"
  else if (b =? 0x0A)%N then String backslash "n"
  else if (b =? 0x0D)%N then String backslash "r"
  else if (b =? 0x09)%N then String backslash "t"
  else String backslash "u00"
       +:+ String (hex_digit (N.shiftr b 4)) (String (hex_digit (N.land b 0xF)) "").

(** The loop of [appendString]. Go advances an index by the width of each
    rune; here the bytes a rune still owns are counted down in [pending],
    and [keep] says whether they are copied (an ordinary rune) or were
    replaced by an escape (U+2028, U+2029). *)
Fixpoint appendString_loop (pending : nat) (keep : bool) (s : string) : string :=
  match s with
  | EmptyString => EmptyString
  | String c rest =>
      match pending with
      | S k =>
          if keep then String c (appendString_loop k keep rest)
          else appendString_loop k keep rest
      | O =>
          let b := N_of_ascii c in
          if (b <? 0x80)%N then
            if htmlSafe b then String c (appendString_loop 0 true rest)
            else escape_ascii c +:+ appendString_loop 0 true rest
          else
            let '(r, size) := DecodeRuneInString s in
            if (r =? RuneError)%N && (size =? 1)%nat then
              String backslash "ufffd" +:+ appendString_loop 0 true rest
            else if (r =? 0x2028)%N || (r =? 0x2029)%N then
              String backslash "u202"
              +:+ String (hex_digit (N.land r 0xF))
                    (appendString_loop (size - 1) false rest)
            else String c (appendString_loop (size - 1) true rest)
      end
  end.

Definition appendString (s : string) : string :=
  String dquote (appendString_loop 0 true s) +:+ String dquote "".

(** *** Values to text: compact, members in the order given *)

Fixpoint encode (v : value) : string :=
  match v with
  | Bool true => "true"
  | Bool false => "false"
  | Str s => appendString s
  | Arr elems =>
      "[" +:+
      (fix go (l : list value) : string :=
         match l with
         | [] => ""
         | x :: l' =>
             match l' with
             | [] => encode x
             | _ :: _ => encode x +:+ "," +:+ go l'
             end
         end) elems
      +:+ "]"
  | Obj members =>
      "{" +:+
      (fix go (l : list (string * value)) : string :=
         match l with
         | [] => ""
         | (k, x) :: l' =>
             match l' with
             | [] => appendString k +:+ ":" +:+ encode x
             | _ :: _ => appendString k +:+ ":" +:+ encode x +:+ "," +:+ go l'
             end
         end) members
      +:+ "}"
  end.

(** *** The request types, field by field, tag by tag *)

Definition of_strings (l : list string) : value := Arr (Str <$> l).

Definition of_reqMessage (m : reqMessage) : value :=
  Obj [("role", Str (reqMessage_Role m));
       ("content", Str (reqMessage_Content m))].

Definition of_words (w : words) : value :=
  Obj [("type", Str (words_Type w));
       ("description", Str (words_Description w))].

Definition of_properties (p : properties) : value :=
  Obj [("words", of_words (properties_Words p))].

Definition of_parameters (p : parameters) : value :=
  Obj [("type", Str (parameters_Type p));
       ("properties", of_properties (parameters_Properties p))].

Definition of_function (f : function) : value :=
  Obj [("name", Str (function_Name f));
       ("description", Str (function_Description f));
       ("parameters", of_parameters (function_Parameters f));
       ("required", of_strings (function_Required f))].

Definition of_chatRequest (r : chatRequest) : value :=
  Obj [("model", Str (Model r));
       ("messages", Arr (of_reqMessage <$> Messages r));
       ("functions", Arr (of_function <$> Functions r));
       ("stream", Bool (Stream r));
       ("function_call", Str (FunctionCall r))].

(** [json.Marshal(chatReq)]. No field of the request types can make the
    encoder fail (strings, booleans, slices and structs only), so the
    result is always [Ok]; the caller checks the error all the same. *)
Definition Marshal (r : chatRequest) : result string :=
  Ok (encode (of_chatRequest r)).

End JSON.

(** ** The outside world and the trace of calls *)

(** What the environment, the network and the two library decoders answer.
    The program cannot tell one world from another except through these
    answers, so a property proved for every [World] holds whatever the
    server sends and whatever the decoders make of it. *)
Record World := {
  (** the process environment, for [os.Getenv] *)
  environ : gmap string string;
  (** [http.NewRequestWithContext method url]: nil, or why the method or
      the URL was refused *)
  NewRequest_err : string -> string -> option error;
  (** [client.Do req]: the response, or the transport's error *)
  RoundTrip : Request -> result Response;
  (** [json.Unmarshal body chatRes] *)
  Unmarshal_chatResponse : string -> result chatResponse;
  (** [json.NewDecoder(body).Decode(chatRes)] *)
  Decode_chatResponse : ReadCloser -> result chatResponse
}.

(** Every call that leaves the program's own code, in the order made. *)
Inductive event : Type :=
| EvMarshal (v : chatRequest)
| EvNewRequest (method url body : string)
| EvGetenv (key : string)
| EvDo (req : Request)
| EvReadAll (body : ReadCloser)
| EvUnmarshal (data : string)
| EvDecode (body : ReadCloser)
| EvClose (body : ReadCloser)
| EvLog (line : string)
| EvPrintln (line : string).

(** A function either returns or the process has exited ([os.Exit], which
    [log.Fatal] and [log.Fatalf] call: deferred calls do not run). *)
Inductive outcome (A : Type) : Type :=
| Returned (a : A)
| Exited (code : Z).
Arguments Returned {A} a.
Arguments Exited {A} code.

(** A computation: how it ends and the calls it made. *)
Definition Prog (A : Type) : Type := outcome A * list event.

Definition ret {A} (a : A) : Prog A := (Returned a, []).

Definition bind {A B} (m : Prog A) (k : A -> Prog B) : Prog B :=
  match m with
  | (Returned a, t) => let '(r, t') := k a in (r, (t ++ t')%list)
  | (Exited code, t) => (Exited code, t)
  end.

Definition call {A} (e : event) (answer : A) : Prog A := (Returned answer, [e]).

Definition os_Exit {A} (code : Z) : Prog A := (Exited code, []).

Notation "'do' x <- m ; k" := (bind m (fun x => k))
  (at level 10, x name, m at level 100, k at level 200).
Notation "'run' m ; k" := (bind m (fun _ => k))
  (at level 10, m at level 100, k at level 200).

(** [defer cleanup] in front of the rest of a function body: the cleanup
    runs when the body returns, after the results are set; not when the
    process exits inside the body. *)
Definition defer {A} (cleanup : Prog unit) (body : Prog A) : Prog A :=
  do a <- body; run cleanup; ret a.

Definition trace {A} (m : Prog A) : list event := m.2.
Definition result_of {A} (m : Prog A) : outcome A := m.1.

(** The requests that went out, oldest first. *)
Definition requests_sent (t : list event) : list Request :=
  omap (fun e => match e with EvDo req => Some req | _ => None end) t.

(** The lines logged, oldest first. *)
Definition logged (t : list event) : list string :=
  omap (fun e => match e with EvLog l => Some l | _ => None end) t.

(** [needle] occurs in [hay]. *)
Definition occurs_in (needle hay : string) : Prop :=
  exists pre post, hay = pre +:+ needle +:+ post.

(** ** Library calls, as the program sees them *)

Section Library.
Variable w : World.

Definition json_Marshal (v : chatRequest) : Prog (result string) :=
  call (EvMarshal v) (JSON.Marshal v).

(** On success the request has the method, the URL and the body given
    and no header yet. *)
Definition http_NewRequestWithContext (method url body : string)
  : Prog (result Request) :=
  call (EvNewRequest method url body)
    match NewRequest_err w method url with
    | Some err => Err err
    | None => Ok {| Method := method; URL := url; Header := ∅; Body := body |}
    end.

(** The value of the variable; empty when it is not set. *)
Definition os_Getenv (key : string) : Prog string :=
  call (EvGetenv key) (default "" (environ w !! key)).

Definition client_Do (req : Request) : Prog (result Response) :=
  call (EvDo req) (RoundTrip w req).

Definition io_ReadAll (body : ReadCloser) : Prog (result string) :=
  call (EvReadAll body)
    match stream_err body with
    | Some err => Err err
    | None => Ok (stream_data body)
    end.

Definition json_Unmarshal (data : string) : Prog (result chatResponse) :=
  call (EvUnmarshal data) (Unmarshal_chatResponse w data).

Definition json_Decode (body : ReadCloser) : Prog (result chatResponse) :=
  call (EvDecode body) (Decode_chatResponse w body).

Definition Body_Close (body : ReadCloser) : Prog unit :=
  call (EvClose body) tt.

(** [log.Printf] after formatting: one line on standard error. *)
Definition log_Printf (line : string) : Prog unit :=
  call (EvLog line) tt.

(** [log.Fatalf] and [log.Fatal]: the line, then [os.Exit(1)]. *)
Definition log_Fatalf {A} (line : string) : Prog A :=
  run log_Printf line; os_Exit 1.

Definition fmt_Println (line : string) : Prog unit :=
  call (EvPrintln line) tt.

End Library.

(** ** src/main.go *)

Module MainGo.

(** Set a prompt and other values to create chat request *)
Definition createChatRequest (prompt : string) : chatRequest :=
  {| Model := "llama3-70b";
     Messages := [ {| reqMessage_Role := "user"; reqMessage_Content := prompt |} ];
     Functions :=
       [ {| function_Name := "Get_English_Exmple_Sentence";
            function_Description :=
              "Get the English example sentence generated with given words.";
            function_Parameters :=
              {| parameters_Type := "object";
                 parameters_Properties :=
                   {| properties_Words :=
                        {| words_Type := "string";
                           words_Description :=
                             "English vocabulary list, e.g. nonchalant, reckon, appalled"
                        |} |} |};
            function_Required := ["words"] |} ];
     Stream := false;
     FunctionCall := "none" |}.

Section Program.
Variable w : World.

(** Get generated response from Llama API. The Go function returns the
    pair [(string, error)]; both components are kept. *)
Definition getGeneratedResponse (prompt : string) : Prog (string * option error) :=
  let chatReq := createChatRequest prompt in
  do marshalled <- json_Marshal chatReq;
  match marshalled with
  | Err err =>
      run log_Printf ("Failed to Marshal: " +:+ Error err);
      ret ("", Some err)
  | Ok jsonData =>
  do created <- http_NewRequestWithContext w "POST" API_URL jsonData;
  match created with
  | Err err =>
      run log_Printf ("Failed to create http request struct: " +:+ Error err);
      ret ("", Some err)
  | Ok req =>
  do apiKey <- os_Getenv w "LLAMA_API_KEY";
  if decide (apiKey = "") then
    let err := errors_New "LLAMA_API_KEY environment variable is not set" in
    run log_Printf ("Failed to get API KEY: " +:+ Error err);
    ret ("", Some err)
  else
  let req := Request_Header_Set req "Content-Type" "application/json" in
  let req := Request_Header_Set req "Authorization" ("Bearer " +:+ apiKey) in
  do answered <- client_Do w req;
  match answered with
  | Err err =>
      run log_Printf ("Failed to get http response: " +:+ Error err);
      ret ("", Some err)
  | Ok res =>
  if decide (StatusCode res ≠ http_StatusOK) then
    let err := errors_New "Unexpected status code" in
    run log_Printf ("Failed to get expected status code: " +:+ Error err
                    +:+ " :" +:+ pretty (StatusCode res));
    ret ("", Some err)
  else
  defer (Body_Close (Response_Body res)) (
  do read <- io_ReadAll (Response_Body res);
  match read with
  | Err err =>
      run log_Printf ("Failed to read body: " +:+ Error err);
      ret ("", Some err)
  | Ok body =>
  do decoded <- json_Unmarshal w body;
  match decoded with
  | Err err =>
      run log_Printf ("Failed to unmarshal: " +:+ Error err);
      ret ("", Some err)
  | Ok chatRes =>
  (* len(chatRes.Choices) == 0, and Choices[0] when it is not *)
  match Choices chatRes with
  | [] =>
      let err := errors_New "No choices returned from llama" in
      run log_Printf ("Failed to get expected length of choices: " +:+ Error err);
      ret ("", Some err)
  | first :: _ =>
      ret (resMessage_Content (Message first), None)
  end end end) end end end.

Definition main_words : list string := ["nonchalant"; "reckon"; "appalled"].

Definition main_prompt : string :=
  "Please create an English example sentence using following words: "
  +:+ default "" (main_words !! 0%nat) +:+ ", "
  +:+ default "" (main_words !! 1%nat) +:+ ", "
  +:+ default "" (main_words !! 2%nat).

Definition main : Prog unit :=
  let prompt := main_prompt in
  run fmt_Println "";
  run fmt_Println "";
  run fmt_Println "++++++ Prompt ++++++";
  run fmt_Println prompt;
  run fmt_Println "";
  run fmt_Println "";
  run fmt_Println "++++++ Generated response ++++++";
  do answer <- getGeneratedResponse prompt;
  let '(response, err) := answer in
  match err with
  | Some err =>
      log_Fatalf ("Failed to get generated response from Llama API: " +:+ Error err)
  | None =>
      run fmt_Println response;
      run fmt_Println "";
      fmt_Println ""
  end.

End Program.

End MainGo.

(** ** src/unnamed/part_001: the variant that aborts in place *)

Module Part001.

(** Set a prompt and other values to create chat request *)
Definition createChatRequest (prompt : string) : chatRequest :=
  {| Model := "llama3-70b";
     Messages := [ {| reqMessage_Role := "user"; reqMessage_Content := prompt |} ];
     Functions :=
       [ {| function_Name := "Get_English_Exmple_Sentence";
            function_Description :=
              "Get the English example sentence generated with given words.";
            function_Parameters :=
              {| parameters_Type := "object";
                 parameters_Properties :=
                   {| properties_Words :=
                        {| words_Type := "string";
                           words_Description :=
                             "English vocabulary list, e.g. nonchalant, reckon, appalled"
                        |} |} |};
            function_Required := ["words"] |} ];
     Stream := false;
     FunctionCall := "none" |}.

Section Program.
Variable w : World.

(** Get generated response from Llama API *)
Definition getGeneratedResponse (prompt : string) : Prog string :=
  let chatReq := createChatRequest prompt in
  do marshalled <- json_Marshal chatReq;
  match marshalled with
  | Err err => log_Fatalf ("Failed to marshal json: " +:+ Error err)
  | Ok jsonData =>
  do created <- http_NewRequestWithContext w "POST" API_URL jsonData;
  match created with
  | Err err => log_Fatalf ("Failed to create http request struct: " +:+ Error err)
  | Ok req =>
  do apiKey <- os_Getenv w "LLAMA_API_KEY";
  if decide (apiKey = "") then
    log_Fatalf "LLAMA_API_KEY environment variable is not set"
  else
  let req := Request_Header_Set req "Content-Type" "application/json" in
  let req := Request_Header_Set req "Authorization" ("Bearer " +:+ apiKey) in
  do answered <- client_Do w req;
  match answered with
  | Err err => log_Fatalf ("Failed to get http response: " +:+ Error err)
  | Ok res =>
  if decide (StatusCode res ≠ http_StatusOK) then
    log_Fatalf ("Unexpected status code: " +:+ Status res)
  else
  defer (Body_Close (Response_Body res)) (
  do decoded <- json_Decode w (Response_Body res);
  match decoded with
  | Err err => log_Fatalf ("Failed to decode: " +:+ Error err)
  | Ok chatRes =>
  (* len(chatRes.Choices) == 0, and Choices[0] when it is not *)
  match Choices chatRes with
  | [] => log_Fatalf "No choices returned from llama"
  | first :: _ => ret (resMessage_Content (Message first))
  end end) end end end.

Definition main_words : list string := ["nonchalant"; "reckon"; "appalled"].

Definition main_prompt : string :=
  "Please create an English example sentence using following words: "
  +:+ default "" (main_words !! 0%nat) +:+ ", "
  +:+ default "" (main_words !! 1%nat) +:+ ", "
  +:+ default "" (main_words !! 2%nat).

Definition main : Prog unit :=
  let prompt := main_prompt in
  run fmt_Println "";
  run fmt_Println "";
  run fmt_Println "++++++ Prompt ++++++";
  run fmt_Println prompt;
  run fmt_Println "";
  run fmt_Println "";
  run fmt_Println "++++++ Generated response ++++++";
  do response <- getGeneratedResponse prompt;
  run fmt_Println response;
  run fmt_Println "";
  fmt_Println "".

End Program.

End Part001.

(** ** A world to run the programs in

    The key is set, the server answers every request with status 200 and a
    body the decoders read as two choices. *)

Module Demo.

Definition key : string := "sk-test".

Definition no_call : functionCall :=
  {| functionCall_Name := ""; functionCall_Arguments := {| arguments_Words := [] |} |}.

Definition choice0 : choice :=
  {| Index := 0;
     Message := {| resMessage_Role := "assistant";
                   resMessage_Content := "She gave a nonchalant shrug.";
                   resMessage_FunctionCall := no_call |};
     FinishReason := "stop" |}.

Definition choice1 : choice :=
  {| Index := 1;
     Message := {| resMessage_Role := "assistant";
                   resMessage_Content := "I reckon he was appalled.";
                   resMessage_FunctionCall := no_call |};
     FinishReason := "stop" |}.

Definition answer : chatResponse := {| Choices := [choice0; choice1] |}.

Definition payload : string := "{...}".

Definition body_ok : ReadCloser := {| stream_data := payload; stream_err := None |}.

Definition res_ok : Response :=
  {| StatusCode := 200; Status := "200 OK"; Response_Body := body_ok |}.

Definition res_404 : Response :=
  {| StatusCode := 404; Status := "404 Not Found"; Response_Body := body_ok |}.

Definition decode_as (cr : chatResponse) (data : string) : result chatResponse :=
  if decide (data = payload) then Ok cr
  else Err (errors_New "unexpected end of JSON input").

Definition world (env : gmap string string) (res : result Response)
    (cr : chatResponse) : World :=
  {| environ := env;
     NewRequest_err := fun _ _ => None;
     RoundTrip := fun _ => res;
     Unmarshal_chatResponse := decode_as cr;
     Decode_chatResponse := fun body => decode_as cr (stream_data body) |}.

Definition env_ok : gmap string string := {[ "LLAMA_API_KEY" := key ]}.

Definition w_ok : World := world env_ok (Ok res_ok) answer.
Definition w_nokey : World := world ∅ (Ok res_ok) answer.
Definition w_emptykey : World := world {[ "LLAMA_API_KEY" := "" ]} (Ok res_ok) answer.
Definition w_404 : World := world env_ok (Ok res_404) answer.
Definition w_nochoice : World := world env_ok (Ok res_ok) {| Choices := [] |}.
Definition w_offline : World :=
  world env_ok (Err (errors_New "dial tcp: connection refused")) answer.

End Demo.

(** ** Vocabulary of the properties *)

(** What [os.Getenv("LLAMA_API_KEY")] returns in a world. *)
Definition apiKey_of (w : World) : string :=
  default "" (environ w !! "LLAMA_API_KEY").

(** The request handed to [client.Do]: the one [NewRequestWithContext]
    made, with the two headers set in the program's order. *)
Definition outgoing (apiKey body : string) : Request :=
  Request_Header_Set
    (Request_Header_Set
       {| Method := "POST"; URL := API_URL; Header := ∅; Body := body |}
       "Content-Type" "application/json")
    "Authorization" ("Bearer " +:+ apiKey).

(** The failure modes the specification lists. *)
Inductive failure : Type :=
| SerializationFailure
| RequestConstructionFailure
| MissingAPIKey
| NetworkFailure
| Non200Status
| BodyReadFailure
| DeserializationFailure
| EmptyChoiceList.

(** A step of the run recorded in [t] failed: the call is in the trace and
    the world's answer to it was the bad one. *)
Inductive step_failed (w : World) (t : list event) : failure -> error -> Prop :=
| marshal_failed v err :
    EvMarshal v ∈ t -> JSON.Marshal v = Err err ->
    step_failed w t SerializationFailure err
| new_request_failed method url body err :
    EvNewRequest method url body ∈ t -> NewRequest_err w method url = Some err ->
    step_failed w t RequestConstructionFailure err
| api_key_missing key :
    EvGetenv key ∈ t -> default "" (environ w !! key) = "" ->
    step_failed w t MissingAPIKey
      (errors_New "LLAMA_API_KEY environment variable is not set")
| network_failed req err :
    EvDo req ∈ t -> RoundTrip w req = Err err ->
    step_failed w t NetworkFailure err
| status_not_ok req res :
    EvDo req ∈ t -> RoundTrip w req = Ok res -> StatusCode res ≠ http_StatusOK ->
    step_failed w t Non200Status (errors_New "Unexpected status code")
| body_read_failed body err :
    EvReadAll body ∈ t -> stream_err body = Some err ->
    step_failed w t BodyReadFailure err
| unmarshal_failed data err :
    EvUnmarshal data ∈ t -> Unmarshal_chatResponse w data = Err err ->
    step_failed w t DeserializationFailure err
| no_choices data chatRes :
    EvUnmarshal data ∈ t -> Unmarshal_chatResponse w data = Ok chatRes ->
    Choices chatRes = [] ->
    step_failed w t EmptyChoiceList (errors_New "No choices returned from llama").

(** What [main] prints before it asks for the response. *)
Definition banner (prompt : string) : list event :=
  [EvPrintln ""; EvPrintln ""; EvPrintln "++++++ Prompt ++++++"; EvPrintln prompt;
   EvPrintln ""; EvPrintln ""; EvPrintln "++++++ Generated response ++++++"].

(** The request body expected for the prompt of [main], written out member
    by member; [quoted s] is [s] between double quotes. *)
Definition quoted (s : string) : string :=
  String JSON.dquote s +:+ String JSON.dquote "".

Definition expected_function : string :=
  "{" +:+ quoted "name" +:+ ":" +:+ quoted "Get_English_Exmple_Sentence" +:+ ","
  +:+ quoted "description" +:+ ":"
  +:+ quoted "Get the English example sentence generated with given words." +:+ ","
  +:+ quoted "parameters" +:+ ":{"
    +:+ quoted "type" +:+ ":" +:+ quoted "object" +:+ ","
    +:+ quoted "properties" +:+ ":{"
      +:+ quoted "words" +:+ ":{"
        +:+ quoted "type" +:+ ":" +:+ quoted "string" +:+ ","
        +:+ quoted "description" +:+ ":"
        +:+ quoted "English vocabulary list, e.g. nonchalant, reckon, appalled"
      +:+ "}}},"
  +:+ quoted "required" +:+ ":[" +:+ quoted "words" +:+ "]}".

Definition expected_body : string :=
  "{" +:+ quoted "model" +:+ ":" +:+ quoted "llama3-70b" +:+ ","
  +:+ quoted "messages" +:+ ":[{"
    +:+ quoted "role" +:+ ":" +:+ quoted "user" +:+ ","
    +:+ quoted "content" +:+ ":"
    +:+ quoted "Please create an English example sentence using following words: nonchalant, reckon, appalled"
    +:+ "}],"
  +:+ quoted "functions" +:+ ":[" +:+ expected_function +:+ "],"
  +:+ quoted "stream" +:+ ":false,"
  +:+ quoted "function_call" +:+ ":" +:+ quoted "none" +:+ "}".

(** The same request as a JSON value. *)
Definition expected_value : JSON.value :=
  JSON.Obj
    [("model", JSON.Str "llama3-70b");
     ("messages",
      JSON.Arr
        [JSON.Obj
           [("role", JSON.Str "user");
            ("content",
             JSON.Str "Please create an English example sentence using following words: nonchalant, reckon, appalled")]]);
     ("functions",
      JSON.Arr
        [JSON.Obj
           [("name", JSON.Str "Get_English_Exmple_Sentence");
            ("description",
             JSON.Str "Get the English example sentence generated with given words.");
            ("parameters",
             JSON.Obj
               [("type", JSON.Str "object");
                ("properties",
                 JSON.Obj
                   [("words",
                     JSON.Obj
                       [("type", JSON.Str "string");
                        ("description",
                         JSON.Str "English vocabulary list, e.g. nonchalant, reckon, appalled")])])]);
            ("required", JSON.Arr [JSON.Str "words"])]]);
     ("stream", JSON.Bool false);
     ("function_call", JSON.Str "none")].

(** ** More vocabulary: what a run shows of itself *)

(** The lines written to standard output, oldest first. *)
Definition printed (t : list event) : list string :=
  omap (fun e => match e with EvPrintln l => Some l | _ => None end) t.

(** The bodies closed, and the bodies read to the end. *)
Definition closed (t : list event) : list ReadCloser :=
  omap (fun e => match e with EvClose b => Some b | _ => None end) t.

Definition read_out (t : list event) : list ReadCloser :=
  omap (fun e => match e with EvReadAll b => Some b | _ => None end) t.

(** The environment variables looked up. *)
Definition looked_up (t : list event) : list string :=
  omap (fun e => match e with EvGetenv k => Some k | _ => None end) t.

(** A trace without its [client.Do] calls: all that does not carry the
    request. *)
Definition beside_requests (t : list event) : list event :=
  omap (fun e => match e with EvDo _ => None | _ => Some e end) t.

(** A string of ASCII bytes that the JSON encoder copies as they are. *)
Definition plain (s : string) : Prop :=
  Forall (fun c => JSON.htmlSafe (N_of_ascii c) = true) (list_ascii_of_string s).

(** The request body around the prompt: all that comes before the
    content string and all that comes after it. *)
Definition body_prefix : string :=
  "{" +:+ quoted "model" +:+ ":" +:+ quoted "llama3-70b" +:+ ","
  +:+ quoted "messages" +:+ ":[{"
  +:+ quoted "role" +:+ ":" +:+ quoted "user" +:+ ","
  +:+ quoted "content" +:+ ":".

Definition body_suffix : string :=
  "}],"
  +:+ quoted "functions" +:+ ":[" +:+ expected_function +:+ "],"
  +:+ quoted "stream" +:+ ":false,"
  +:+ quoted "function_call" +:+ ":" +:+ quoted "none" +:+ "}".

(** More worlds: another key, a URL the library refuses, a body that
    breaks off, a body the decoders reject. *)
Module Demo2.

Definition w_otherkey : World :=
  Demo.world {[ "LLAMA_API_KEY" := "sk-other" ]} (Ok Demo.res_ok) Demo.answer.

Definition w_badurl : World :=
  {| environ := Demo.env_ok;
     NewRequest_err := fun _ _ => Some (errors_New "parse: invalid URL");
     RoundTrip := fun _ => Ok Demo.res_ok;
     Unmarshal_chatResponse := Demo.decode_as Demo.answer;
     Decode_chatResponse := fun body => Demo.decode_as Demo.answer (stream_data body) |}.

Definition body_cut : ReadCloser :=
  {| stream_data := "{.."; stream_err := Some (errors_New "unexpected EOF") |}.

Definition res_cut : Response :=
  {| StatusCode := 200; Status := "200 OK"; Response_Body := body_cut |}.

Definition w_cut : World := Demo.world Demo.env_ok (Ok res_cut) Demo.answer.

Definition body_html : ReadCloser :=
  {| stream_data := "<html>"; stream_err := None |}.

Definition res_html : Response :=
  {| StatusCode := 200; Status := "200 OK"; Response_Body := body_html |}.

Definition w_html : World := Demo.world Demo.env_ok (Ok res_html) Demo.answer.


End Demo2.


(** * Properties *)

(** ** Walking the program

    [json.Marshal] answers [Ok] by computation; every later branch point
    is a question to the world. [walk] asks them in program order and
    leaves one goal per path, the answers named in the context. *)

#[global] Arguments Request_Header_Set : simpl never.
#[global] Arguments JSON.encode : simpl never.

Ltac reduce_prog :=
  cbn [bind call ret defer os_Exit json_Marshal http_NewRequestWithContext
       os_Getenv client_Do io_ReadAll json_Unmarshal json_Decode Body_Close
       log_Printf log_Fatalf fmt_Println JSON.Marshal trace result_of
       fst snd app Error] in *.

Ltac ask_world :=
  match goal with
  | |- context [match NewRequest_err ?w ?m ?u with _ => _ end] =>
      destruct (NewRequest_err w m u) as [?err |] eqn:?
  | |- context [decide (default "" (environ ?w !! ?k) = "")] =>
      destruct (decide (default "" (environ w !! k) = "")) as [?Hkey | ?Hkey]
  | |- context [match RoundTrip ?w ?req with _ => _ end] =>
      destruct (RoundTrip w req) as [?res | ?err] eqn:?
  | |- context [decide (StatusCode ?res ≠ http_StatusOK)] =>
      destruct (decide (StatusCode res ≠ http_StatusOK)) as [?Hstatus | ?Hstatus]
  | |- context [match stream_err ?b with _ => _ end] =>
      destruct (stream_err b) as [?err |] eqn:?
  | |- context [match Unmarshal_chatResponse ?w ?d with _ => _ end] =>
      destruct (Unmarshal_chatResponse w d) as [?chatRes | ?err] eqn:?
  | |- context [match Decode_chatResponse ?w ?b with _ => _ end] =>
      destruct (Decode_chatResponse w b) as [?chatRes | ?err] eqn:?
  | |- context [match Choices ?c with _ => _ end] =>
      destruct (Choices c) as [| ?first ?rest] eqn:?
  end.

Ltac walk := reduce_prog; repeat (ask_world; reduce_prog).

(** Membership in a trace that is written out: one case per event. *)
Ltac in_trace H :=
  repeat (apply elem_of_cons in H as [H | H]; [try discriminate H |]);
  try (apply elem_of_nil in H; destruct H).

(** Two answers of the world to one question are one answer. *)
Ltac agree :=
  repeat match goal with
  | H1 : RoundTrip ?w ?r = _, H2 : RoundTrip ?w ?r = _ |- _ =>
      rewrite H1 in H2; simplify_eq
  | H1 : Unmarshal_chatResponse ?w ?d = _, H2 : Unmarshal_chatResponse ?w ?d = _ |- _ =>
      rewrite H1 in H2; simplify_eq
  | H1 : Decode_chatResponse ?w ?d = _, H2 : Decode_chatResponse ?w ?d = _ |- _ =>
      rewrite H1 in H2; simplify_eq
  end.

Ltac start := unfold MainGo.getGeneratedResponse, Part001.getGeneratedResponse in *.

(** ** Facts shared by the properties *)

Lemma Marshal_Ok (v : chatRequest) :
  JSON.Marshal v = Ok (JSON.encode (JSON.of_chatRequest v)).
Proof. reflexivity. Qed.

Lemma createChatRequest_same (prompt : string) :
  Part001.createChatRequest prompt = MainGo.createChatRequest prompt.
Proof. reflexivity. Qed.

(** [getGeneratedResponse] of main.go never ends the process itself. *)
Lemma getGeneratedResponse_returns (w : World) (prompt : string) :
  exists s err, result_of (MainGo.getGeneratedResponse w prompt) = Returned (s, err).
Proof. start. walk; eauto. Qed.

(** A request went out only past the first three steps, and it is the one
    built from the key and the marshalled prompt. *)
Lemma sent_inv (w : World) (prompt : string) (req : Request) :
  EvDo req ∈ trace (MainGo.getGeneratedResponse w prompt) ->
  NewRequest_err w "POST" API_URL = None
  /\ apiKey_of w ≠ ""
  /\ req = outgoing (apiKey_of w)
             (JSON.encode (JSON.of_chatRequest (MainGo.createChatRequest prompt))).
Proof.
  start. unfold apiKey_of, outgoing. intros H. revert H. walk; intros H; in_trace H.
  all: simplify_eq; auto.
Qed.


Lemma encode_main_prompt :
  JSON.encode (JSON.of_chatRequest (MainGo.createChatRequest MainGo.main_prompt))
  = expected_body.
Proof. vm_compute. reflexivity. Qed.

(** The encoder on sample strings: HTML-sensitive bytes and control bytes
    are escaped, well-formed UTF-8 passes, a stray byte becomes U+FFFD. *)
Example appendString_html : JSON.appendString "a<b>&c" = quoted "a\u003cb\u003e\u0026c".
Proof. reflexivity. Qed.

Example appendString_control :
  JSON.appendString (String "010"%char (String "001"%char "x")) = quoted "\n\u0001x".
Proof. reflexivity. Qed.

Example appendString_utf8 :
  JSON.appendString (String "195"%char (String "169"%char "z"))
  = quoted (String "195"%char (String "169"%char "z")).
Proof. reflexivity. Qed.

Example appendString_stray_byte :
  JSON.appendString (String "255"%char "z") = quoted "\ufffdz".
Proof. reflexivity. Qed.

(** A string of safe ASCII bytes is encoded as itself between quotes. *)
Lemma appendString_loop_plain (s : string) :
  Forall (fun c => JSON.htmlSafe (N_of_ascii c) = true) (list_ascii_of_string s) ->
  JSON.appendString_loop 0 true s = s.
Proof.
  induction s as [| c s IH]; intros Hsafe; [reflexivity |].
  cbn [list_ascii_of_string] in Hsafe. apply Forall_cons in Hsafe as [Hc Hs].
  cbn [JSON.appendString_loop]. rewrite Hc.
  unfold JSON.htmlSafe in Hc. apply andb_prop in Hc as [Hc _].
  apply andb_prop in Hc as [_ ->]. by rewrite IH.
Qed.

Lemma appendString_plain (s : string) :
  Forall (fun c => JSON.htmlSafe (N_of_ascii c) = true) (list_ascii_of_string s) ->
  JSON.appendString s = quoted s.
Proof.
  intros Hsafe. unfold JSON.appendString, quoted.
  by rewrite appendString_loop_plain.
Qed.

(** X21. Whatever the world answers, the two variants send the same
    requests: same method, URL, headers and body, and as many. *)
Lemma variants_send_the_same (w : World) (prompt : string) :
  requests_sent (trace (Part001.getGeneratedResponse w prompt))
  = requests_sent (trace (MainGo.getGeneratedResponse w prompt)).
Proof.
  start. change (Part001.createChatRequest prompt) with (MainGo.createChatRequest prompt).
  walk; reflexivity.
Qed.

(** ** The success path *)

(** C1. When the request the program sent is answered with status 200 and
    a body that reads without error and that [json.Unmarshal] decodes into
    a [chatResponse] with at least one choice, [getGeneratedResponse]
    returns the content of the first choice's message as it is, and a nil
    error; the other choices ([rest]) play no part. *)
Theorem first_choice_returned
    (w : World) (prompt : string) (req : Request) (res : Response)
    (chatRes : chatResponse) (c : choice) (rest : list choice) :
  EvDo req ∈ trace (MainGo.getGeneratedResponse w prompt) ->
  RoundTrip w req = Ok res ->
  StatusCode res = http_StatusOK ->
  stream_err (Response_Body res) = None ->
  Unmarshal_chatResponse w (stream_data (Response_Body res)) = Ok chatRes ->
  Choices chatRes = c :: rest ->
  result_of (MainGo.getGeneratedResponse w prompt)
  = Returned (resMessage_Content (Message c), None).
Proof.
  intros Hsent Hanswer Hok Hbody Hjson Hc. revert Hsent. start.
  walk; intros Hsent; in_trace Hsent; simplify_eq; congruence.
Qed.

Lemma first_choice_returned_witness :
  result_of (MainGo.getGeneratedResponse Demo.w_ok "hi")
  = Returned ("She gave a nonchalant shrug.", None).
Proof.
  apply (first_choice_returned Demo.w_ok "hi"
           (outgoing Demo.key (JSON.encode (JSON.of_chatRequest (MainGo.createChatRequest "hi"))))
           Demo.res_ok Demo.answer Demo.choice0 [Demo.choice1]).
  - vm_compute. do 3 apply list_elem_of_further. apply list_elem_of_here.
  - reflexivity.
  - reflexivity.
  - reflexivity.
  - reflexivity.
  - reflexivity.
Defined.

(** ** The failure paths *)

(** C3. With [LLAMA_API_KEY] unset or set to the empty string,
    [getGeneratedResponse] returns a non-nil error (and the empty string),
    and no request has gone out: [client.Do] is not in the trace. *)
Theorem missing_key_fails_before_network (w : World) (prompt : string) :
  environ w !! "LLAMA_API_KEY" = None \/ environ w !! "LLAMA_API_KEY" = Some "" ->
  (exists err, result_of (MainGo.getGeneratedResponse w prompt) = Returned ("", Some err))
  /\ requests_sent (trace (MainGo.getGeneratedResponse w prompt)) = [].
Proof.
  intros Hunset.
  assert (Hempty : default "" (environ w !! "LLAMA_API_KEY") = "")
    by (destruct Hunset as [-> | ->]; reflexivity).
  start. walk; try contradiction; eauto.
Qed.

Lemma missing_key_fails_before_network_witness :
  ((exists err, result_of (MainGo.getGeneratedResponse Demo.w_nokey "hi")
                = Returned ("", Some err))
   /\ requests_sent (trace (MainGo.getGeneratedResponse Demo.w_nokey "hi")) = [])
  /\ ((exists err, result_of (MainGo.getGeneratedResponse Demo.w_emptykey "hi")
                   = Returned ("", Some err))
      /\ requests_sent (trace (MainGo.getGeneratedResponse Demo.w_emptykey "hi")) = []).
Proof.
  split.
  - apply (missing_key_fails_before_network Demo.w_nokey "hi"). left. reflexivity.
  - apply (missing_key_fails_before_network Demo.w_emptykey "hi"). right. reflexivity.
Defined.

(** C4. When the request the program sent is answered with a status other
    than 200, [getGeneratedResponse] returns a non-nil error and the body
    is neither read nor parsed: the trace holds no [io.ReadAll] and no
    [json.Unmarshal]. *)
Theorem non200_fails_without_reading_body
    (w : World) (prompt : string) (req : Request) (res : Response) :
  EvDo req ∈ trace (MainGo.getGeneratedResponse w prompt) ->
  RoundTrip w req = Ok res ->
  StatusCode res ≠ http_StatusOK ->
  (exists err, result_of (MainGo.getGeneratedResponse w prompt) = Returned ("", Some err))
  /\ (forall body, EvReadAll body ∉ trace (MainGo.getGeneratedResponse w prompt))
  /\ (forall data, EvUnmarshal data ∉ trace (MainGo.getGeneratedResponse w prompt)).
Proof.
  intros Hsent Hanswer Hbad. revert Hsent. start.
  walk; intros Hsent; in_trace Hsent; simplify_eq; agree; try contradiction.
  split; [eauto |]. split; intros x Hx; in_trace Hx.
Qed.

Lemma non200_fails_without_reading_body_witness :
  (exists err, result_of (MainGo.getGeneratedResponse Demo.w_404 "hi")
               = Returned ("", Some err))
  /\ (forall body, EvReadAll body ∉ trace (MainGo.getGeneratedResponse Demo.w_404 "hi"))
  /\ (forall data, EvUnmarshal data ∉ trace (MainGo.getGeneratedResponse Demo.w_404 "hi")).
Proof.
  apply (non200_fails_without_reading_body Demo.w_404 "hi"
           (outgoing Demo.key (JSON.encode (JSON.of_chatRequest (MainGo.createChatRequest "hi"))))
           Demo.res_404).
  - vm_compute. do 3 apply list_elem_of_further. apply list_elem_of_here.
  - reflexivity.
  - vm_compute. discriminate.
Defined.

(** C5. When the request the program sent is answered with status 200 and
    a body that reads without error and decodes into a [chatResponse] with
    no choice, [getGeneratedResponse] returns a non-nil error. *)
Theorem zero_choices_fails
    (w : World) (prompt : string) (req : Request) (res : Response)
    (chatRes : chatResponse) :
  EvDo req ∈ trace (MainGo.getGeneratedResponse w prompt) ->
  RoundTrip w req = Ok res ->
  StatusCode res = http_StatusOK ->
  stream_err (Response_Body res) = None ->
  Unmarshal_chatResponse w (stream_data (Response_Body res)) = Ok chatRes ->
  Choices chatRes = [] ->
  result_of (MainGo.getGeneratedResponse w prompt)
  = Returned ("", Some (errors_New "No choices returned from llama")).
Proof.
  intros Hsent Hanswer Hok Hbody Hjson Hnone. revert Hsent. start.
  walk; intros Hsent; in_trace Hsent; simplify_eq; congruence.
Qed.

Lemma zero_choices_fails_witness :
  result_of (MainGo.getGeneratedResponse Demo.w_nochoice "hi")
  = Returned ("", Some (errors_New "No choices returned from llama")).
Proof.
  apply (zero_choices_fails Demo.w_nochoice "hi"
           (outgoing Demo.key (JSON.encode (JSON.of_chatRequest (MainGo.createChatRequest "hi"))))
           Demo.res_ok {| Choices := [] |}).
  - vm_compute. do 3 apply list_elem_of_further. apply list_elem_of_here.
  - reflexivity.
  - reflexivity.
  - reflexivity.
  - reflexivity.
  - reflexivity.
Defined.

(** C9. Whenever [getGeneratedResponse] returns a non-nil error, the string
    it returns with it is the empty string. *)
Theorem error_goes_with_empty_string
    (w : World) (prompt : string) (s : string) (err : error) :
  result_of (MainGo.getGeneratedResponse w prompt) = Returned (s, Some err) ->
  s = "".
Proof.
  start. walk; intros Hret; by simplify_eq.
Qed.

Lemma error_goes_with_empty_string_witness :
  result_of (MainGo.getGeneratedResponse Demo.w_offline "hi")
  = Returned ("", Some (errors_New "dial tcp: connection refused"))
  /\ "" = "".
Proof.
  split; [reflexivity |].
  apply (error_goes_with_empty_string Demo.w_offline "hi" ""
           (errors_New "dial tcp: connection refused")).
  reflexivity.
Defined.

(** ** The request *)

(** C8. For every prompt, [createChatRequest] puts the prompt as it is in
    the content of the one message, whose role is "user"; the model, the
    stream flag, the function-call mode and the function declarations do
    not depend on the prompt. *)
Theorem createChatRequest_embeds_prompt (prompt : string) :
  Messages (MainGo.createChatRequest prompt)
  = [ {| reqMessage_Role := "user"; reqMessage_Content := prompt |} ]
  /\ Model (MainGo.createChatRequest prompt) = "llama3-70b"
  /\ Stream (MainGo.createChatRequest prompt) = false
  /\ FunctionCall (MainGo.createChatRequest prompt) = "none"
  /\ Functions (MainGo.createChatRequest prompt)
     = Functions (MainGo.createChatRequest "").
Proof. repeat split. Qed.

(** C2. For the prompt [main] builds, the request marshals to the expected
    JSON: an object with the members model, messages, functions, stream and
    function_call in this order, messages holding the prompt as the one
    user message and functions the one fixed declaration; the text of it
    is [expected_body], and that text is the body [main] makes its request
    of in every world. *)
Theorem request_body_shape :
  JSON.of_chatRequest (MainGo.createChatRequest MainGo.main_prompt) = expected_value
  /\ JSON.Marshal (MainGo.createChatRequest MainGo.main_prompt) = Ok expected_body
  /\ forall w : World, EvNewRequest "POST" API_URL expected_body ∈ trace (MainGo.main w).
Proof.
  split; [reflexivity |]. split.
  - rewrite Marshal_Ok, encode_main_prompt. reflexivity.
  - intros w. unfold MainGo.main. start. rewrite <- encode_main_prompt.
    walk; do 8 apply list_elem_of_further; apply list_elem_of_here.
Qed.


(** ** Every failure is logged and fatal *)

Lemma occurs_in_end (needle pre : string) : occurs_in needle (pre +:+ needle).
Proof.
  exists pre, "". f_equal. induction needle as [| c n IH]; [reflexivity |].
  change (String c n = String c (n +:+ "")). by f_equal.
Qed.

Lemma occurs_in_middle (needle pre post : string) :
  occurs_in needle (pre +:+ needle +:+ post).
Proof. by exists pre, post. Qed.

Ltac found :=
  solve [repeat first [eapply list_elem_of_here | eapply list_elem_of_further]].

Ltac blame :=
  eexists;
  first
    [ eapply new_request_failed; [found | eassumption]
    | eapply api_key_missing; [found | eassumption]
    | eapply network_failed; [found | eassumption]
    | eapply status_not_ok; [found | eassumption | eassumption]
    | eapply body_read_failed; [found | eassumption]
    | eapply unmarshal_failed; [found | eassumption]
    | eapply no_choices; [found | eassumption | eassumption] ].

(** C6. [getGeneratedResponse] returns a non-nil error [err] exactly when
    one of the steps the specification lists failed in that run, with that
    error; it then has logged one line, which quotes the error; [main]
    answers every such error the same way, whatever the step: one more log
    line quoting it and exit status 1, nothing printed after, nothing
    tried again; no run sends a second request. *)
Theorem failures_logged_and_fatal (w : World) (prompt : string) :
  (forall err,
     (exists s, result_of (MainGo.getGeneratedResponse w prompt) = Returned (s, Some err))
     <-> (exists kind, step_failed w (trace (MainGo.getGeneratedResponse w prompt)) kind err))
  /\ (forall s err,
        result_of (MainGo.getGeneratedResponse w prompt) = Returned (s, Some err) ->
        exists line,
          logged (trace (MainGo.getGeneratedResponse w prompt)) = [line]
          /\ occurs_in (Error err) line)
  /\ (forall s err,
        result_of (MainGo.getGeneratedResponse w MainGo.main_prompt)
        = Returned (s, Some err) ->
        MainGo.main w
        = (Exited 1,
           (banner MainGo.main_prompt
            ++ trace (MainGo.getGeneratedResponse w MainGo.main_prompt)
            ++ [EvLog ("Failed to get generated response from Llama API: "
                       +:+ Error err)])%list))
  /\ (length (requests_sent (trace (MainGo.main w))) <= 1)%nat.
Proof.
  split; [| split; [| split]].
  - intros err. split.
    + start. walk; intros [s Hret]; simplify_eq; blame.
    + start. walk; intros [kind Hfail]; inversion Hfail as
        [ v e Hin Hwhy | m u b e Hin Hwhy | k Hin Hwhy | r e Hin Hwhy
        | r rs Hin Hwhy Hbad | b e Hin Hwhy | d e Hin Hwhy | d cr Hin Hwhy Hnone ];
        subst; in_trace Hin; simplify_eq; agree;
        try rewrite Marshal_Ok in *; try congruence; try contradiction; eauto.
  - start. walk; intros s e Hret; simplify_eq; (eexists; split; [reflexivity |]);
      first [apply occurs_in_end | apply occurs_in_middle].
  - unfold MainGo.main. start. walk; intros s e Hret; simplify_eq; reflexivity.
  - unfold MainGo.main. start. walk; cbn; lia.
Qed.

Lemma failures_logged_and_fatal_witness :
  MainGo.main Demo.w_nokey
  = (Exited 1,
     (banner MainGo.main_prompt
      ++ trace (MainGo.getGeneratedResponse Demo.w_nokey MainGo.main_prompt)
      ++ [EvLog ("Failed to get generated response from Llama API: "
                 +:+ "LLAMA_API_KEY environment variable is not set")])%list).
Proof.
  apply (proj1 (proj2 (proj2 (failures_logged_and_fatal Demo.w_nokey "")))
           "" (errors_New "LLAMA_API_KEY environment variable is not set")).
  reflexivity.
Defined.

(** ** The two variants *)



(** * More of main.go *)

(** ** What a nil error stands for *)



(** X8. [getGeneratedResponse] logs nothing exactly when it returns a nil
    error. *)
Theorem silent_iff_nil_error (w : World) (prompt : string) :
  logged (trace (MainGo.getGeneratedResponse w prompt)) = []
  <-> exists s, result_of (MainGo.getGeneratedResponse w prompt) = Returned (s, None).
Proof.
  start. walk; (split; [intros Hlog | intros [s Hret]]);
    first [discriminate | eauto].
Qed.

(** ** The failure paths the claims leave out *)

(** X2. When [http.NewRequestWithContext] refuses the request, its error
    comes back as it is with the empty string; the environment has not
    been read, nothing has been sent, and the one line logged quotes the
    error. *)
Theorem request_construction_failure (w : World) (prompt : string) (err : error) :
  NewRequest_err w "POST" API_URL = Some err ->
  MainGo.getGeneratedResponse w prompt
  = (Returned ("", Some err),
     [EvMarshal (MainGo.createChatRequest prompt);
      EvNewRequest "POST" API_URL
        (JSON.encode (JSON.of_chatRequest (MainGo.createChatRequest prompt)));
      EvLog ("Failed to create http request struct: " +:+ Error err)]).
Proof.
  intros Hrefused. start. reduce_prog. rewrite Hrefused. reflexivity.
Qed.

Lemma request_construction_failure_witness :
  looked_up (trace (MainGo.getGeneratedResponse Demo2.w_badurl "hi")) = []
  /\ requests_sent (trace (MainGo.getGeneratedResponse Demo2.w_badurl "hi")) = []
  /\ result_of (MainGo.getGeneratedResponse Demo2.w_badurl "hi")
     = Returned ("", Some (errors_New "parse: invalid URL")).
Proof.
  rewrite (request_construction_failure Demo2.w_badurl "hi"
             (errors_New "parse: invalid URL") eq_refl).
  repeat split.
Defined.

(** X3. When [client.Do] fails, the transport's error comes back as it is
    with the empty string; there is no response, so nothing is read,
    parsed or closed, and the one line logged quotes the error. *)
Theorem network_failure
    (w : World) (prompt : string) (req : Request) (err : error) :
  EvDo req ∈ trace (MainGo.getGeneratedResponse w prompt) ->
  RoundTrip w req = Err err ->
  result_of (MainGo.getGeneratedResponse w prompt) = Returned ("", Some err)
  /\ read_out (trace (MainGo.getGeneratedResponse w prompt)) = []
  /\ closed (trace (MainGo.getGeneratedResponse w prompt)) = []
  /\ logged (trace (MainGo.getGeneratedResponse w prompt))
     = ["Failed to get http response: " +:+ Error err].
Proof.
  intros Hsent Hdown. revert Hsent. start.
  walk; intros Hsent; in_trace Hsent; simplify_eq; agree.
  repeat split.
Qed.

Lemma network_failure_witness :
  result_of (MainGo.getGeneratedResponse Demo.w_offline "hi")
  = Returned ("", Some (errors_New "dial tcp: connection refused"))
  /\ read_out (trace (MainGo.getGeneratedResponse Demo.w_offline "hi")) = []
  /\ closed (trace (MainGo.getGeneratedResponse Demo.w_offline "hi")) = []
  /\ logged (trace (MainGo.getGeneratedResponse Demo.w_offline "hi"))
     = ["Failed to get http response: " +:+ "dial tcp: connection refused"].
Proof.
  apply (network_failure Demo.w_offline "hi"
           (outgoing Demo.key (JSON.encode (JSON.of_chatRequest (MainGo.createChatRequest "hi"))))
           (errors_New "dial tcp: connection refused")).
  - vm_compute. do 3 apply list_elem_of_further. apply list_elem_of_here.
  - reflexivity.
Defined.

(** X4. When a 200 response's body breaks off while [io.ReadAll] reads
    it, the read error comes back as it is with the empty string;
    [json.Unmarshal] is not reached, and the body is closed all the
    same. *)
Theorem unreadable_body
    (w : World) (prompt : string) (req : Request) (res : Response) (err : error) :
  EvDo req ∈ trace (MainGo.getGeneratedResponse w prompt) ->
  RoundTrip w req = Ok res ->
  StatusCode res = http_StatusOK ->
  stream_err (Response_Body res) = Some err ->
  result_of (MainGo.getGeneratedResponse w prompt) = Returned ("", Some err)
  /\ (forall data, EvUnmarshal data ∉ trace (MainGo.getGeneratedResponse w prompt))
  /\ closed (trace (MainGo.getGeneratedResponse w prompt)) = [Response_Body res]
  /\ logged (trace (MainGo.getGeneratedResponse w prompt))
     = ["Failed to read body: " +:+ Error err].
Proof.
  intros Hsent Hanswer Hok Hcut. revert Hsent. start.
  walk; intros Hsent; in_trace Hsent; simplify_eq; agree; try congruence.
  simplify_eq. repeat split. intros data Hin. in_trace Hin.
Qed.

Lemma unreadable_body_witness :
  result_of (MainGo.getGeneratedResponse Demo2.w_cut "hi")
  = Returned ("", Some (errors_New "unexpected EOF"))
  /\ (forall data, EvUnmarshal data ∉ trace (MainGo.getGeneratedResponse Demo2.w_cut "hi"))
  /\ closed (trace (MainGo.getGeneratedResponse Demo2.w_cut "hi")) = [Demo2.body_cut]
  /\ logged (trace (MainGo.getGeneratedResponse Demo2.w_cut "hi"))
     = ["Failed to read body: " +:+ "unexpected EOF"].
Proof.
  apply (unreadable_body Demo2.w_cut "hi"
           (outgoing Demo.key (JSON.encode (JSON.of_chatRequest (MainGo.createChatRequest "hi"))))
           Demo2.res_cut (errors_New "unexpected EOF")).
  - vm_compute. do 3 apply list_elem_of_further. apply list_elem_of_here.
  - reflexivity.
  - reflexivity.
  - reflexivity.
Defined.

(** X5. When [json.Unmarshal] rejects the body of a 200 response, its
    error comes back as it is with the empty string, and the body is
    closed. *)
Theorem undecodable_body
    (w : World) (prompt : string) (req : Request) (res : Response) (err : error) :
  EvDo req ∈ trace (MainGo.getGeneratedResponse w prompt) ->
  RoundTrip w req = Ok res ->
  StatusCode res = http_StatusOK ->
  stream_err (Response_Body res) = None ->
  Unmarshal_chatResponse w (stream_data (Response_Body res)) = Err err ->
  result_of (MainGo.getGeneratedResponse w prompt) = Returned ("", Some err)
  /\ closed (trace (MainGo.getGeneratedResponse w prompt)) = [Response_Body res]
  /\ logged (trace (MainGo.getGeneratedResponse w prompt))
     = ["Failed to unmarshal: " +:+ Error err].
Proof.
  intros Hsent Hanswer Hok Hbody Hbad. revert Hsent. start.
  walk; intros Hsent; in_trace Hsent; simplify_eq; agree; try congruence.
  repeat split.
Qed.

Lemma undecodable_body_witness :
  result_of (MainGo.getGeneratedResponse Demo2.w_html "hi")
  = Returned ("", Some (errors_New "unexpected end of JSON input"))
  /\ closed (trace (MainGo.getGeneratedResponse Demo2.w_html "hi")) = [Demo2.body_html]
  /\ logged (trace (MainGo.getGeneratedResponse Demo2.w_html "hi"))
     = ["Failed to unmarshal: " +:+ "unexpected end of JSON input"].
Proof.
  apply (undecodable_body Demo2.w_html "hi"
           (outgoing Demo.key (JSON.encode (JSON.of_chatRequest (MainGo.createChatRequest "hi"))))
           Demo2.res_html (errors_New "unexpected end of JSON input")).
  - vm_compute. do 3 apply list_elem_of_further. apply list_elem_of_here.
  - reflexivity.
  - reflexivity.
  - reflexivity.
  - reflexivity.
Defined.

(** ** The deferred close *)

(** X6. In every run the bodies closed are the bodies read: there is none,
    or there is the one body of a 200 response, and closing it is the last
    thing the function does. *)
Theorem body_closed_when_read (w : World) (prompt : string) :
  closed (trace (MainGo.getGeneratedResponse w prompt))
  = read_out (trace (MainGo.getGeneratedResponse w prompt))
  /\ (closed (trace (MainGo.getGeneratedResponse w prompt)) = []
      \/ exists req res,
           EvDo req ∈ trace (MainGo.getGeneratedResponse w prompt)
           /\ RoundTrip w req = Ok res
           /\ StatusCode res = http_StatusOK
           /\ closed (trace (MainGo.getGeneratedResponse w prompt)) = [Response_Body res]
           /\ last (trace (MainGo.getGeneratedResponse w prompt))
              = Some (EvClose (Response_Body res))).
Proof.
  start. walk; (split; [reflexivity |]);
    first [ left; reflexivity
          | right; eexists _, _; split; [found |];
            split; [eassumption |]; split; [by apply dec_stable |];
            split; reflexivity ].
Qed.

(** X7. The body of a response whose status is not 200 is never closed:
    the close is deferred only after the status check has passed. *)
Theorem non200_body_left_open
    (w : World) (prompt : string) (req : Request) (res : Response) :
  EvDo req ∈ trace (MainGo.getGeneratedResponse w prompt) ->
  RoundTrip w req = Ok res ->
  StatusCode res ≠ http_StatusOK ->
  closed (trace (MainGo.getGeneratedResponse w prompt)) = []
  /\ logged (trace (MainGo.getGeneratedResponse w prompt))
     = ["Failed to get expected status code: Unexpected status code :"
        +:+ pretty (StatusCode res)].
Proof.
  intros Hsent Hanswer Hbad. revert Hsent. start.
  walk; intros Hsent; in_trace Hsent; simplify_eq; agree; try contradiction.
  split; reflexivity.
Qed.

Lemma non200_body_left_open_witness :
  closed (trace (MainGo.getGeneratedResponse Demo.w_404 "hi")) = []
  /\ logged (trace (MainGo.getGeneratedResponse Demo.w_404 "hi"))
     = ["Failed to get expected status code: Unexpected status code :404"].
Proof.
  apply (non200_body_left_open Demo.w_404 "hi"
           (outgoing Demo.key (JSON.encode (JSON.of_chatRequest (MainGo.createChatRequest "hi"))))
           Demo.res_404).
  - vm_compute. do 3 apply list_elem_of_further. apply list_elem_of_here.
  - reflexivity.
  - vm_compute. discriminate.
Defined.

(** ** Where the API key goes *)

(** X9. The key reaches the request and nothing else. Two worlds with
    different non-empty keys, whose libraries and servers answer alike,
    give runs with the same result and, the [client.Do] call apart, the
    same trace: no log line, no other call carries the key. *)
Theorem key_only_in_the_request (w1 w2 : World) (prompt : string) :
  apiKey_of w1 ≠ "" ->
  apiKey_of w2 ≠ "" ->
  NewRequest_err w2 "POST" API_URL = NewRequest_err w1 "POST" API_URL ->
  (forall body, RoundTrip w2 (outgoing (apiKey_of w2) body)
                = RoundTrip w1 (outgoing (apiKey_of w1) body)) ->
  (forall data, Unmarshal_chatResponse w2 data = Unmarshal_chatResponse w1 data) ->
  result_of (MainGo.getGeneratedResponse w2 prompt)
  = result_of (MainGo.getGeneratedResponse w1 prompt)
  /\ beside_requests (trace (MainGo.getGeneratedResponse w2 prompt))
     = beside_requests (trace (MainGo.getGeneratedResponse w1 prompt)).
Proof.
  unfold apiKey_of, outgoing. intros Hk1 Hk2 Hnew Hnet Hjson. start. reduce_prog.
  rewrite Hnew. destruct (NewRequest_err w1 "POST" API_URL); reduce_prog;
    [split; reflexivity |].
  destruct (decide (default "" (environ w1 !! "LLAMA_API_KEY") = "")); [contradiction |].
  destruct (decide (default "" (environ w2 !! "LLAMA_API_KEY") = "")); [contradiction |].
  reduce_prog. rewrite Hnet.
  match goal with |- context [RoundTrip w1 ?r] => destruct (RoundTrip w1 r) as [res | e] end;
    reduce_prog; [| split; reflexivity].
  destruct (decide (StatusCode res ≠ http_StatusOK)); reduce_prog; [split; reflexivity |].
  destruct (stream_err (Response_Body res)); reduce_prog; [split; reflexivity |].
  rewrite Hjson.
  destruct (Unmarshal_chatResponse w1 (stream_data (Response_Body res))) as [cr | e];
    reduce_prog; [| split; reflexivity].
  destruct (Choices cr); reduce_prog; split; reflexivity.
Qed.

Lemma key_only_in_the_request_witness :
  result_of (MainGo.getGeneratedResponse Demo2.w_otherkey "hi")
  = result_of (MainGo.getGeneratedResponse Demo.w_ok "hi")
  /\ beside_requests (trace (MainGo.getGeneratedResponse Demo2.w_otherkey "hi"))
     = beside_requests (trace (MainGo.getGeneratedResponse Demo.w_ok "hi")).
Proof.
  apply (key_only_in_the_request Demo.w_ok Demo2.w_otherkey "hi").
  - vm_compute. discriminate.
  - vm_compute. discriminate.
  - reflexivity.
  - intros body. reflexivity.
  - intros data. reflexivity.
Defined.

(** ** The request body, for every prompt *)

Lemma append_assoc (a b c : string) : (a +:+ b) +:+ c = a +:+ (b +:+ c).
Proof.
  induction a as [| x a IH]; [reflexivity |].
  change (String x ((a +:+ b) +:+ c) = String x (a +:+ b +:+ c)). by f_equal.
Qed.

(** The body depends on the prompt through its encoded content string
    only. *)
Lemma body_around_prompt (prompt : string) :
  JSON.encode (JSON.of_chatRequest (MainGo.createChatRequest prompt))
  = body_prefix +:+ JSON.appendString prompt +:+ body_suffix.
Proof.
  cbv -[JSON.appendString String.append body_prefix body_suffix].
  generalize (JSON.appendString prompt). intros content.
  rewrite !append_assoc. vm_compute. reflexivity.
Qed.

(** X10. For every prompt made of ASCII bytes that JSON leaves as they
    are, the marshalled request is a fixed text, the prompt between double
    quotes, and a fixed text: the prompt is in the body byte for byte, and
    nothing else in the body depends on it. *)
Theorem body_embeds_plain_prompt (prompt : string) :
  plain prompt ->
  JSON.Marshal (MainGo.createChatRequest prompt)
  = Ok (body_prefix +:+ quoted prompt +:+ body_suffix).
Proof.
  intros Hplain. rewrite Marshal_Ok, body_around_prompt.
  by rewrite appendString_plain.
Qed.

Lemma body_embeds_plain_prompt_witness :
  JSON.Marshal (MainGo.createChatRequest "To be, or not to be?")
  = Ok (body_prefix +:+ quoted "To be, or not to be?" +:+ body_suffix).
Proof.
  apply (body_embeds_plain_prompt "To be, or not to be?").
  unfold plain. vm_compute. repeat constructor.
Defined.

(** * main of main.go *)

(** X11. [main] ends in one of two ways. Either [getGeneratedResponse]
    gave a nil error: then standard output holds the banner, the response
    and two empty lines, and [main] returns. Or it gave an error: then
    standard output holds the banner alone and the process exits with
    status 1. *)
Theorem main_prints_or_exits (w : World) :
  (exists s,
     result_of (MainGo.getGeneratedResponse w MainGo.main_prompt) = Returned (s, None)
     /\ result_of (MainGo.main w) = Returned tt
     /\ printed (trace (MainGo.main w))
        = (printed (banner MainGo.main_prompt) ++ [s; ""; ""])%list)
  \/ (exists s err,
        result_of (MainGo.getGeneratedResponse w MainGo.main_prompt)
        = Returned (s, Some err)
        /\ result_of (MainGo.main w) = Exited 1
        /\ printed (trace (MainGo.main w)) = printed (banner MainGo.main_prompt)).
Proof.
  unfold MainGo.main. start.
  walk; first [ left; eexists; repeat split; reflexivity
              | right; eexists _, _; repeat split; reflexivity ].
Qed.

(** X12. End to end: with the key set, the request accepted, and the
    server answering the expected request with status 200 and a body that
    reads and decodes into at least one choice, [main] returns normally,
    sends exactly that request, logs nothing, and standard output is the
    banner with the prompt, the first choice's content and two empty
    lines. *)
Theorem main_end_to_end
    (w : World) (key : string) (res : Response)
    (chatRes : chatResponse) (c : choice) (rest : list choice) :
  environ w !! "LLAMA_API_KEY" = Some key ->
  key ≠ "" ->
  NewRequest_err w "POST" API_URL = None ->
  RoundTrip w (outgoing key expected_body) = Ok res ->
  StatusCode res = http_StatusOK ->
  stream_err (Response_Body res) = None ->
  Unmarshal_chatResponse w (stream_data (Response_Body res)) = Ok chatRes ->
  Choices chatRes = c :: rest ->
  result_of (MainGo.main w) = Returned tt
  /\ requests_sent (trace (MainGo.main w)) = [outgoing key expected_body]
  /\ logged (trace (MainGo.main w)) = []
  /\ printed (trace (MainGo.main w))
     = [""; ""; "++++++ Prompt ++++++";
        "Please create an English example sentence using following words: nonchalant, reckon, appalled";
        ""; ""; "++++++ Generated response ++++++";
        resMessage_Content (Message c); ""; ""].
Proof.
  intros Hkey Hset Hnew Hanswer Hok Hbody Hjson Hc.
  unfold outgoing in Hanswer. unfold MainGo.main. start.
  reduce_prog. rewrite encode_main_prompt, Hnew, Hkey. cbn [default from_option id]. reduce_prog.
  destruct (decide (key = "")); [contradiction |]. reduce_prog.
  rewrite Hanswer. reduce_prog.
  destruct (decide (StatusCode res ≠ http_StatusOK)); [contradiction |].
  reduce_prog. rewrite Hbody. reduce_prog. rewrite Hjson. reduce_prog.
  rewrite Hc. reduce_prog. repeat split.
Qed.

Lemma main_end_to_end_witness :
  result_of (MainGo.main Demo.w_ok) = Returned tt
  /\ requests_sent (trace (MainGo.main Demo.w_ok)) = [outgoing Demo.key expected_body]
  /\ logged (trace (MainGo.main Demo.w_ok)) = []
  /\ printed (trace (MainGo.main Demo.w_ok))
     = [""; ""; "++++++ Prompt ++++++";
        "Please create an English example sentence using following words: nonchalant, reckon, appalled";
        ""; ""; "++++++ Generated response ++++++";
        "She gave a nonchalant shrug."; ""; ""].
Proof.
  apply (main_end_to_end Demo.w_ok Demo.key Demo.res_ok Demo.answer
           Demo.choice0 [Demo.choice1]).
  - reflexivity.
  - discriminate.
  - reflexivity.
  - reflexivity.
  - reflexivity.
  - reflexivity.
  - reflexivity.
  - reflexivity.
Defined.

(** * part_001: the variant that aborts in place *)



(** X14. When [getGeneratedResponse] of part_001 ends the process, the
    exit status is 1, exactly one line was logged and logging it was the
    last thing done; no body was closed, not even one whose close had been
    deferred. *)
Theorem part001_abort (w : World) (prompt : string) (code : Z) :
  result_of (Part001.getGeneratedResponse w prompt) = Exited code ->
  code = 1
  /\ closed (trace (Part001.getGeneratedResponse w prompt)) = []
  /\ exists line,
       logged (trace (Part001.getGeneratedResponse w prompt)) = [line]
       /\ last (trace (Part001.getGeneratedResponse w prompt)) = Some (EvLog line).
Proof.
  start. walk; intros Hexit; simplify_eq; (split; [reflexivity |]);
    (split; [reflexivity |]); eexists; split; reflexivity.
Qed.

Lemma part001_abort_witness :
  1 = 1
  /\ closed (trace (Part001.getGeneratedResponse Demo.w_nochoice "hi")) = []
  /\ exists line,
       logged (trace (Part001.getGeneratedResponse Demo.w_nochoice "hi")) = [line]
       /\ last (trace (Part001.getGeneratedResponse Demo.w_nochoice "hi"))
          = Some (EvLog line).
Proof.
  apply (part001_abort Demo.w_nochoice "hi" 1). reflexivity.
Defined.

(** X15. In part_001, with the request accepted and [LLAMA_API_KEY] unset
    or empty, the process exits with status 1 after logging that the
    variable is not set; no request has gone out. *)
Theorem part001_missing_key (w : World) (prompt : string) :
  NewRequest_err w "POST" API_URL = None ->
  environ w !! "LLAMA_API_KEY" = None \/ environ w !! "LLAMA_API_KEY" = Some "" ->
  result_of (Part001.getGeneratedResponse w prompt) = Exited 1
  /\ requests_sent (trace (Part001.getGeneratedResponse w prompt)) = []
  /\ logged (trace (Part001.getGeneratedResponse w prompt))
     = ["LLAMA_API_KEY environment variable is not set"].
Proof.
  intros Hnew Hunset.
  assert (Hempty : default "" (environ w !! "LLAMA_API_KEY") = "")
    by (destruct Hunset as [-> | ->]; reflexivity).
  start. walk; try contradiction; try congruence. repeat split.
Qed.

Lemma part001_missing_key_witness :
  result_of (Part001.getGeneratedResponse Demo.w_nokey "hi") = Exited 1
  /\ requests_sent (trace (Part001.getGeneratedResponse Demo.w_nokey "hi")) = []
  /\ logged (trace (Part001.getGeneratedResponse Demo.w_nokey "hi"))
     = ["LLAMA_API_KEY environment variable is not set"].
Proof.
  apply (part001_missing_key Demo.w_nokey "hi").
  - reflexivity.
  - left. reflexivity.
Defined.

(** X16. In part_001, when the request sent is answered with a status
    other than 200, the process exits with status 1 after logging the
    response's status line; the body is neither decoded nor closed. *)
Theorem part001_non200
    (w : World) (prompt : string) (req : Request) (res : Response) :
  EvDo req ∈ trace (Part001.getGeneratedResponse w prompt) ->
  RoundTrip w req = Ok res ->
  StatusCode res ≠ http_StatusOK ->
  result_of (Part001.getGeneratedResponse w prompt) = Exited 1
  /\ logged (trace (Part001.getGeneratedResponse w prompt))
     = ["Unexpected status code: " +:+ Status res]
  /\ (forall body, EvDecode body ∉ trace (Part001.getGeneratedResponse w prompt))
  /\ closed (trace (Part001.getGeneratedResponse w prompt)) = [].
Proof.
  intros Hsent Hanswer Hbad. revert Hsent. start.
  walk; intros Hsent; in_trace Hsent; simplify_eq; agree; try contradiction.
  repeat split. intros body Hin. in_trace Hin.
Qed.

Lemma part001_non200_witness :
  result_of (Part001.getGeneratedResponse Demo.w_404 "hi") = Exited 1
  /\ logged (trace (Part001.getGeneratedResponse Demo.w_404 "hi"))
     = ["Unexpected status code: " +:+ "404 Not Found"]
  /\ (forall body, EvDecode body ∉ trace (Part001.getGeneratedResponse Demo.w_404 "hi"))
  /\ closed (trace (Part001.getGeneratedResponse Demo.w_404 "hi")) = [].
Proof.
  apply (part001_non200 Demo.w_404 "hi"
           (outgoing Demo.key (JSON.encode (JSON.of_chatRequest (MainGo.createChatRequest "hi"))))
           Demo.res_404).
  - vm_compute. do 3 apply list_elem_of_further. apply list_elem_of_here.
  - reflexivity.
  - vm_compute. discriminate.
Defined.

(** X17. In part_001, when a 200 response decodes into no choice, the
    process exits with status 1 after logging that no choices were
    returned. *)
Theorem part001_zero_choices
    (w : World) (prompt : string) (req : Request) (res : Response)
    (chatRes : chatResponse) :
  EvDo req ∈ trace (Part001.getGeneratedResponse w prompt) ->
  RoundTrip w req = Ok res ->
  StatusCode res = http_StatusOK ->
  Decode_chatResponse w (Response_Body res) = Ok chatRes ->
  Choices chatRes = [] ->
  result_of (Part001.getGeneratedResponse w prompt) = Exited 1
  /\ logged (trace (Part001.getGeneratedResponse w prompt))
     = ["No choices returned from llama"].
Proof.
  intros Hsent Hanswer Hok Hjson Hnone. revert Hsent. start.
  walk; intros Hsent; in_trace Hsent; simplify_eq; agree; try congruence.
  split; reflexivity.
Qed.

Lemma part001_zero_choices_witness :
  result_of (Part001.getGeneratedResponse Demo.w_nochoice "hi") = Exited 1
  /\ logged (trace (Part001.getGeneratedResponse Demo.w_nochoice "hi"))
     = ["No choices returned from llama"].
Proof.
  apply (part001_zero_choices Demo.w_nochoice "hi"
           (outgoing Demo.key (JSON.encode (JSON.of_chatRequest (MainGo.createChatRequest "hi"))))
           Demo.res_ok {| Choices := [] |}).
  - vm_compute. do 3 apply list_elem_of_further. apply list_elem_of_here.
  - reflexivity.
  - reflexivity.
  - reflexivity.
  - reflexivity.
Defined.

(** X18. In part_001, when the stream decoder rejects the body of a 200
    response, the process exits with status 1 after logging the decoder's
    error. *)
Theorem part001_undecodable_body
    (w : World) (prompt : string) (req : Request) (res : Response) (err : error) :
  EvDo req ∈ trace (Part001.getGeneratedResponse w prompt) ->
  RoundTrip w req = Ok res ->
  StatusCode res = http_StatusOK ->
  Decode_chatResponse w (Response_Body res) = Err err ->
  result_of (Part001.getGeneratedResponse w prompt) = Exited 1
  /\ logged (trace (Part001.getGeneratedResponse w prompt))
     = ["Failed to decode: " +:+ Error err].
Proof.
  intros Hsent Hanswer Hok Hbad. revert Hsent. start.
  walk; intros Hsent; in_trace Hsent; simplify_eq; agree; try congruence.
  split; reflexivity.
Qed.

Lemma part001_undecodable_body_witness :
  result_of (Part001.getGeneratedResponse Demo2.w_html "hi") = Exited 1
  /\ logged (trace (Part001.getGeneratedResponse Demo2.w_html "hi"))
     = ["Failed to decode: " +:+ "unexpected end of JSON input"].
Proof.
  apply (part001_undecodable_body Demo2.w_html "hi"
           (outgoing Demo.key (JSON.encode (JSON.of_chatRequest (MainGo.createChatRequest "hi"))))
           Demo2.res_html (errors_New "unexpected end of JSON input")).
  - vm_compute. do 3 apply list_elem_of_further. apply list_elem_of_here.
  - reflexivity.
  - reflexivity.
  - reflexivity.
Defined.

(** X19. [main] of part_001 ends in one of two ways. Either
    [getGeneratedResponse] returned: then standard output holds the
    banner, the response and two empty lines, and [main] returns. Or it
    ended the process: then standard output holds the banner alone and the
    exit status is 1. *)
Theorem part001_main_prints_or_exits (w : World) :
  (exists s,
     result_of (Part001.getGeneratedResponse w Part001.main_prompt) = Returned s
     /\ result_of (Part001.main w) = Returned tt
     /\ printed (trace (Part001.main w))
        = (printed (banner Part001.main_prompt) ++ [s; ""; ""])%list)
  \/ (result_of (Part001.getGeneratedResponse w Part001.main_prompt) = Exited 1
      /\ result_of (Part001.main w) = Exited 1
      /\ printed (trace (Part001.main w)) = printed (banner Part001.main_prompt)).
Proof.
  unfold Part001.main. start.
  walk; first [ left; eexists; repeat split; reflexivity
              | right; repeat split; reflexivity ].
Qed.

(** * The two programs side by side *)



